(** * The c_heater example of mongoose-os: a shallow embedding

    Embedding of [fw/examples/c_heater/src/main.c]: the MCP9808 read over
    I2C ([mc6808_read_temp]), the heater setter ([set_heater]), the three
    HTTP handlers, the reporting timer ([sensor_timer_cb]), the outbound
    connection callback ([handle_sensor_conn]) and [mg_app_init].

    The C code computes the temperature in [double].  Every value it forms
    is a multiple of 1/16 of magnitude below 2^13/16, so each operation
    ([upper_byte * 16.0], [lower_byte / 16.0], the sum, [256 - _], the
    negation) is exact in binary64; the embedding therefore uses exact
    rationals [Q]. *)

From Stdlib Require Import ZArith QArith Qround Qabs String Ascii List Bool Lia.
Import ListNotations.

Open Scope Z_scope.

(** ** Constants of main.c *)

Definition LED_GPIO : Z := 10.
Definition RELAY_GPIO : Z := 13.
Definition I2C_SDA_GPIO : Z := 12.
Definition I2C_SCL_GPIO : Z := 14.
Definition MCP9808_ADDR : Z := 31. (* 0x1F *)

(** ** The I2C bus (external driver, [fw/src/mg_i2c.h]) *)

Inductive i2c_rw := I2C_WRITE | I2C_READ.
Inductive i2c_ack_type := I2C_ACK | I2C_NAK | I2C_ERR.

Definition ack_eqb (a b : i2c_ack_type) : bool :=
  match a, b with
  | I2C_ACK, I2C_ACK | I2C_NAK, I2C_NAK | I2C_ERR, I2C_ERR => true
  | _, _ => false
  end.

(** Every transfer the code issues on the bus. *)
Inductive bus_op :=
| OpStart (addr : Z) (rw : i2c_rw)
| OpSendByte (b : Z)
| OpReadByte (ack : i2c_ack_type)
| OpStop.

(** What the device answers during one transaction: the result of the
    write-addressed start, of the read-addressed start, and the two bytes
    returned by [i2c_read_byte]. *)
Record bus_env := {
  ans_start_write : i2c_ack_type;
  ans_start_read : i2c_ack_type;
  ans_byte1 : Z;
  ans_byte2 : Z
}.

(** [uint8_t] conversion of a value stored into a [uint8_t] variable. *)
Definition u8 (x : Z) : Z := x mod 256.

(** ** [mc6808_read_temp]

    Returns the bus transfers issued, in order, and the [double] result. *)
Definition SENTINEL : Q := -1000.

Definition mc6808_read_temp (env : bus_env) : list bus_op * Q :=
  if negb (ack_eqb (ans_start_write env) I2C_ACK) then
    ([OpStart MCP9808_ADDR I2C_WRITE], SENTINEL)
  else if negb (ack_eqb (ans_start_read env) I2C_ACK) then
    ([OpStart MCP9808_ADDR I2C_WRITE; OpSendByte 5;
      OpStart MCP9808_ADDR I2C_READ], SENTINEL)
  else
    let ops := [OpStart MCP9808_ADDR I2C_WRITE; OpSendByte 5;
                OpStart MCP9808_ADDR I2C_READ;
                OpReadByte I2C_ACK; OpReadByte I2C_NAK; OpStop] in
    let upper_byte := u8 (ans_byte1 env) in
    let lower_byte := u8 (ans_byte2 env) in
    let upper_byte := Z.land upper_byte 31 in                (* &= 0x1f *)
    if negb (Z.land upper_byte 16 =? 0) then                  (* & 0x10 *)
      let upper_byte := Z.land upper_byte 15 in               (* &= 0xf *)
      (ops, (- (256 - (inject_Z upper_byte * 16 + inject_Z lower_byte / 16)))%Q)
    else
      (ops, (inject_Z upper_byte * 16 + inject_Z lower_byte / 16)%Q).

Definition read_value (env : bus_env) : Q := snd (mc6808_read_temp env).
Definition read_ops (env : bus_env) : list bus_op := fst (mc6808_read_temp env).

(** ** [printf("%.2lf")] of a value

    Round to nearest, ties to even, on the exact value (glibc and newlib
    round the exact binary value this way); the sign is that of the value. *)
Definition Qlt_bool (a b : Q) : bool := negb (Qle_bool b a).

Definition round_half_even (x : Q) : Z :=
  let f := Qfloor x in
  let r := (x - inject_Z f)%Q in
  if Qlt_bool r (1 # 2) then f
  else if Qlt_bool (1 # 2) r then f + 1
  else if Z.even f then f else f + 1.

Definition digit (d : Z) : ascii := ascii_of_nat (48 + Z.to_nat d).

Fixpoint dec_aux (fuel : nat) (n : Z) (acc : string) : string :=
  match fuel with
  | O => acc
  | S f =>
      let acc' := String (digit (n mod 10)) acc in
      if n <? 10 then acc' else dec_aux f (n / 10) acc'
  end.

(** Decimal digits of a non-negative integer. *)
Definition dec (n : Z) : string := dec_aux (S (Z.to_nat (Z.log2 n))) n EmptyString.

Definition fmt2 (q : Q) : string :=
  let n := round_half_even (Qabs q * 100) in
  (if Qlt_bool q 0 then "-" else "") ++ dec (n / 100) ++ "."
  ++ String (digit ((n mod 100) / 10)) (String (digit (n mod 10)) EmptyString).


(** ** Strings and HTTP helpers *)

Open Scope string_scope.

Definition CR : ascii := ascii_of_nat 13.
Definition LF : ascii := ascii_of_nat 10.
Definition DQ : ascii := ascii_of_nat 34.
Definition crlf : string := String CR (String LF EmptyString).
Definition dq : string := String DQ EmptyString.

Definition onoff (b : bool) : string := if b then "on" else "off".

(** [memcmp] on the first [n] bytes: the difference of the first pair of
    bytes that differ (as unsigned char), or 0. *)
Fixpoint memcmp (s1 s2 : string) (n : nat) : Z :=
  match n, s1, s2 with
  | S n', String a s1', String b s2' =>
      if Ascii.eqb a b then memcmp s1' s2' n'
      else Z.of_nat (nat_of_ascii a) - Z.of_nat (nat_of_ascii b)
  | _, _, _ => 0
  end.

(** Mongoose's [mg_vcmp(str1, str2)]: compare the common prefix, then the
    lengths. *)
Definition mg_vcmp (str1 str2 : string) : Z :=
  let n1 := String.length str1 in
  let n2 := String.length str2 in
  let r := memcmp str1 str2 (Nat.min n1 n2) in
  if Z.eqb r 0 then Z.of_nat n1 - Z.of_nat n2 else r.

(** [true] iff [pat] occurs in [s]. *)
Fixpoint contains (pat s : string) : bool :=
  String.prefix pat s ||
  match s with
  | EmptyString => false
  | String _ s' => contains pat s'
  end.

(** ** Configuration ([get_ro_vars()], [get_cfg()->hsw]) *)

Record sys_config := {
  fw_version : string;
  fw_id : string;
  sensor_report_interval_ms : Z;
  sensor_data_url : option string;   (* [None] is NULL *)
  hsw_auth : option string            (* [None] is NULL *)
}.

(** ** Mongoose events, GPIO *)

Inductive mg_ev :=
| MG_EV_POLL | MG_EV_ACCEPT | MG_EV_CONNECT | MG_EV_RECV | MG_EV_SEND
| MG_EV_CLOSE | MG_EV_TIMER | MG_EV_HTTP_REQUEST | MG_EV_HTTP_REPLY
| MG_EV_HTTP_CHUNK.

Inductive gpio_level := GPIO_LEVEL_LOW | GPIO_LEVEL_HIGH.
Inductive gpio_mode := GPIO_MODE_INPUT | GPIO_MODE_OUTPUT.

Definition level_of (on : bool) : gpio_level :=
  if on then GPIO_LEVEL_HIGH else GPIO_LEVEL_LOW.

(** An outbound connection made by [mg_connect_http], with the flag the
    handler may set on it. *)
Record out_conn := {
  oc_id : nat;
  oc_url : option string;
  oc_extra_headers : option string;
  oc_post_data : string;
  oc_close_immediately : bool
}.

(** What a request handler writes on the request's connection. *)
Inductive out_item :=
| SendResponseLine (code : Z) (headers : string)
| Printf (s : string)
| SendRedirect (code : Z) (location : string).

Record http_reply := {
  hr_items : list out_item;
  hr_send_and_close : bool        (* [nc->flags |= MG_F_SEND_AND_CLOSE] *)
}.

Definition no_reply : http_reply := {| hr_items := []; hr_send_and_close := false |}.

(** ** Program state

    The globals of main.c ([s_heater], [s_i2c], [s_sensor_conn]) together
    with what the program does to the outside world: GPIO modes and levels,
    console log lines, bus transfers, registered endpoints, the armed timer
    and the runtime's table of outbound connections. *)
Record state := {
  s_heater : bool;
  gpio_modes : Z -> option gpio_mode;
  gpio_out : Z -> option gpio_level;
  console : list string;                 (* oldest first *)
  bus_log : list bus_op;                 (* oldest first *)
  s_i2c : option (Z * Z);                (* (sda, scl) once [i2c_init] ran *)
  endpoints : list string;
  timer : option Z;                      (* repeat interval, once armed *)
  s_sensor_conn : option nat;            (* [None] is NULL *)
  conns : list out_conn;
  next_conn_id : nat
}.

Definition mk (h : bool) gm go cl bl i2 ep tm sc cs nx : state :=
  {| s_heater := h; gpio_modes := gm; gpio_out := go; console := cl;
     bus_log := bl; s_i2c := i2; endpoints := ep; timer := tm;
     s_sensor_conn := sc; conns := cs; next_conn_id := nx |}.

Definition set_s_heater (st : state) (b : bool) : state :=
  let '(Build_state _ gm go cl bl i2 ep tm sc cs nx) := st in mk b gm go cl bl i2 ep tm sc cs nx.
Definition set_gpio_modes st f : state :=
  let '(Build_state h _ go cl bl i2 ep tm sc cs nx) := st in mk h f go cl bl i2 ep tm sc cs nx.
Definition set_gpio_out st f : state :=
  let '(Build_state h gm _ cl bl i2 ep tm sc cs nx) := st in mk h gm f cl bl i2 ep tm sc cs nx.
Definition set_console st l : state :=
  let '(Build_state h gm go _ bl i2 ep tm sc cs nx) := st in mk h gm go l bl i2 ep tm sc cs nx.
Definition set_bus_log st l : state :=
  let '(Build_state h gm go cl _ i2 ep tm sc cs nx) := st in mk h gm go cl l i2 ep tm sc cs nx.
Definition set_s_i2c st x : state :=
  let '(Build_state h gm go cl bl _ ep tm sc cs nx) := st in mk h gm go cl bl x ep tm sc cs nx.
Definition set_endpoints st l : state :=
  let '(Build_state h gm go cl bl i2 _ tm sc cs nx) := st in mk h gm go cl bl i2 l tm sc cs nx.
Definition set_timer st x : state :=
  let '(Build_state h gm go cl bl i2 ep _ sc cs nx) := st in mk h gm go cl bl i2 ep x sc cs nx.
Definition set_s_sensor_conn st x : state :=
  let '(Build_state h gm go cl bl i2 ep tm _ cs nx) := st in mk h gm go cl bl i2 ep tm x cs nx.
Definition set_conns st l : state :=
  let '(Build_state h gm go cl bl i2 ep tm sc _ nx) := st in mk h gm go cl bl i2 ep tm sc l nx.
Definition set_next_conn_id st n : state :=
  let '(Build_state h gm go cl bl i2 ep tm sc cs _) := st in mk h gm go cl bl i2 ep tm sc cs n.

(** ** Runtime primitives the program calls *)

Definition CONSOLE_LOG (st : state) (line : string) : state :=
  set_console st (app (console st) [line]).

Definition mg_gpio_write (st : state) (pin : Z) (lvl : gpio_level) : state :=
  set_gpio_out st (fun p => if Z.eqb p pin then Some lvl else gpio_out st p).

Definition mg_gpio_set_mode (st : state) (pin : Z) (m : gpio_mode) : state :=
  set_gpio_modes st (fun p => if Z.eqb p pin then Some m else gpio_modes st p).

(** The bus transaction of [mc6808_read_temp], its transfers appended to
    the bus log. *)
Definition read_temp_st (st : state) (env : bus_env) : state * Q :=
  let '(ops, t) := mc6808_read_temp env in (set_bus_log st (app (bus_log st) ops), t).

(** [mg_connect_http(mgr, handler, url, extra_headers, post_data)]: the
    runtime either creates the connection and returns it ([accept = true])
    or fails and returns NULL. *)
Definition mg_connect_http (st : state) (accept : bool) (url : option string)
    (eh : option string) (post_data : string) : state * option nat :=
  if accept then
    let c := {| oc_id := next_conn_id st; oc_url := url; oc_extra_headers := eh;
                oc_post_data := post_data; oc_close_immediately := false |} in
    (set_next_conn_id (set_conns st (app (conns st) [c])) (S (next_conn_id st)),
     Some (next_conn_id st))
  else (st, None).

(** [nc->flags |= MG_F_CLOSE_IMMEDIATELY] on the outbound connection [c]. *)
Definition flag_close_immediately (st : state) (c : nat) : state :=
  set_conns st (map (fun oc => if Nat.eqb (oc_id oc) c then
                      {| oc_id := oc_id oc; oc_url := oc_url oc;
                         oc_extra_headers := oc_extra_headers oc;
                         oc_post_data := oc_post_data oc;
                         oc_close_immediately := true |} else oc) (conns st)).

(** ** [set_heater] *)
Definition set_heater (st : state) (on : bool) : state :=
  let st := CONSOLE_LOG st ("Heater " ++ onoff on) in
  let st := mg_gpio_write st LED_GPIO (level_of on) in
  let st := mg_gpio_write st RELAY_GPIO (level_of on) in
  set_s_heater st on.

(** ** [handle_heater] *)
Definition heater_page (cfg : sys_config) (temp : Q) (heater : bool) : string :=
  "<h1>Welcome to Cesanta Office IoT!</h1>" ++ crlf ++
  "<p>Temperature is " ++ fmt2 temp ++ "&deg;C.</p>" ++ crlf ++
  "<p>Heater is " ++ onoff heater ++ ".</p>" ++ crlf ++
  "<form action=/heater/" ++ onoff (negb heater) ++
  "><input type=submit value='Turn heater " ++ onoff (negb heater) ++
  "'></form>" ++ crlf ++
  "<hr>" ++ crlf ++
  "Heater FW " ++ fw_version cfg ++ " (" ++ fw_id cfg ++ ")".

Definition handle_heater (cfg : sys_config) (st : state) (ev : mg_ev)
    (env : bus_env) : state * http_reply :=
  match ev with
  | MG_EV_HTTP_REQUEST =>
      let line := SendResponseLine 200
                    ("Content-Type: text/html" ++ crlf ++ "Connection: close" ++ crlf) in
      let '(st, temp) := read_temp_st st env in
      (st, {| hr_items := [line; Printf (heater_page cfg temp (s_heater st))];
              hr_send_and_close := true |})
  | _ => (st, no_reply)
  end.

(** ** [handle_heater_action]; [uri] is [hm->uri]. *)
Definition handle_heater_action (st : state) (ev : mg_ev) (uri : string)
    : state * http_reply :=
  match ev with
  | MG_EV_HTTP_REQUEST =>
      let st := if Z.eqb (mg_vcmp uri "/heater/on") 0 then set_heater st true
                else if Z.eqb (mg_vcmp uri "/heater/off") 0 then set_heater st false
                else st in
      (st, {| hr_items := [SendRedirect 302 "/heater"]; hr_send_and_close := true |})
  | _ => (st, no_reply)
  end.

(** ** [handle_debug]; [now] is [mg_time()], [free_heap] is
    [mg_get_free_heap_size()]. *)
Definition handle_debug (st : state) (ev : mg_ev) (now : Q) (free_heap : Z)
    : state * http_reply :=
  match ev with
  | MG_EV_HTTP_REQUEST =>
      (st, {| hr_items := [SendResponseLine 200
                             ("Content-Type: text/plain" ++ crlf ++ "Connection: close" ++ crlf);
                           Printf ("Time is " ++ fmt2 now ++ ". Free RAM " ++ dec free_heap
                                   ++ "." ++ crlf)];
              hr_send_and_close := true |})
  | _ => (st, no_reply)
  end.

(** ** [handle_sensor_conn], the handler of the outbound connection [nc]. *)
Definition handle_sensor_conn (st : state) (nc : nat) (ev : mg_ev) : state :=
  match ev with
  | MG_EV_HTTP_REPLY => flag_close_immediately st nc
  | MG_EV_CLOSE => set_s_sensor_conn st None
  | _ => st
  end.

(** ** [sensor_timer_cb]; [accept] is the outcome of [mg_connect_http]. *)
Definition post_body (temp : Q) : string :=
  "{" ++ dq ++ "office_temperature" ++ dq ++ ": " ++ fmt2 temp ++ "}".

Definition auth_header (cfg : sys_config) : option string :=
  match hsw_auth cfg with
  | Some a => Some ("Authorization: " ++ a ++ crlf)
  | None => None
  end.

Definition sensor_timer_cb (cfg : sys_config) (st : state) (env : bus_env)
    (accept : bool) : state :=
  match s_sensor_conn st with
  | Some _ => st                                         (* In progress. *)
  | None =>
      let '(st, temp) := read_temp_st st env in
      if Qle_bool temp (-1000) then st                    (* Error *)
      else
        let '(st, nc) := mg_connect_http st accept (sensor_data_url cfg)
                           (auth_header cfg) (post_body temp) in
        set_s_sensor_conn st nc
  end.

(** ** [mg_app_init], run on the state left by the static initialisers. *)
Definition boot_state : state :=
  mk false (fun _ => None) (fun _ => None) [] [] None [] None None [] 0.

Definition mg_app_init (cfg : sys_config) (st : state) : state :=
  let st := mg_gpio_set_mode st LED_GPIO GPIO_MODE_OUTPUT in
  let st := mg_gpio_set_mode st RELAY_GPIO GPIO_MODE_OUTPUT in
  let st := mg_gpio_write st LED_GPIO GPIO_LEVEL_LOW in
  let st := mg_gpio_write st RELAY_GPIO GPIO_LEVEL_LOW in
  let st := set_endpoints st (app (endpoints st) ["/heater/"; "/heater"; "/debug"]) in
  let st := set_s_i2c st (Some (I2C_SDA_GPIO, I2C_SCL_GPIO)) in
  if (Z.ltb 0 (sensor_report_interval_ms cfg)) &&
     match sensor_data_url cfg with Some _ => true | None => false end
  then set_timer st (Some (sensor_report_interval_ms cfg))
  else st.

(** ** The event loop

    The runtime delivers requests to the handlers, fires the timer once it
    is armed, and delivers events of an open outbound connection to
    [handle_sensor_conn]; after [MG_EV_CLOSE] it drops the connection.
    [None]: the event cannot occur in that state. *)
Inductive event :=
| EvHeater (ev : mg_ev) (env : bus_env)
| EvHeaterAction (ev : mg_ev) (uri : string)
| EvDebug (ev : mg_ev) (now : Q) (free_heap : Z)
| EvTimer (env : bus_env) (accept : bool)
| EvSensorConn (nc : nat) (ev : mg_ev).

Definition is_close (ev : mg_ev) : bool :=
  match ev with MG_EV_CLOSE => true | _ => false end.

Definition deliver (cfg : sys_config) (st : state) (e : event) : option state :=
  match e with
  | EvHeater ev env => Some (fst (handle_heater cfg st ev env))
  | EvHeaterAction ev uri => Some (fst (handle_heater_action st ev uri))
  | EvDebug ev now heap => Some (fst (handle_debug st ev now heap))
  | EvTimer env accept =>
      match timer st with
      | Some _ => Some (sensor_timer_cb cfg st env accept)
      | None => None
      end
  | EvSensorConn nc ev =>
      if existsb (fun oc => Nat.eqb (oc_id oc) nc) (conns st) then
        let st := handle_sensor_conn st nc ev in
        Some (if is_close ev
              then set_conns st (filter (fun oc => negb (Nat.eqb (oc_id oc) nc)) (conns st))
              else st)
      else None
  end.

Inductive reachable (cfg : sys_config) : state -> Prop :=
| reach_init : reachable cfg (mg_app_init cfg boot_state)
| reach_step st e st' : reachable cfg st -> deliver cfg st e = Some st' -> reachable cfg st'.

(** ** Connection-table invariant of the event loop

    The runtime's open outbound connections are exactly the one the handle
    [s_sensor_conn] names, or none. *)
Definition conn_inv (st : state) : Prop :=
  map oc_id (conns st) = match s_sensor_conn st with Some c => [c] | None => [] end.

(** GPIO invariant: both outputs carry the level of [s_heater]. *)
Definition gpio_inv (st : state) : Prop :=
  gpio_out st LED_GPIO = Some (level_of (s_heater st)) /\
  gpio_out st RELAY_GPIO = Some (level_of (s_heater st)).

(** The 13-bit register value the decoder works on: the low five bits of
    the upper byte, then the lower byte. *)
Definition raw13 (env : bus_env) : Z :=
  Z.land (u8 (ans_byte1 env)) 31 * 256 + u8 (ans_byte2 env).

(** ** Evaluations on concrete inputs *)

Definition env_ok (hi lo : Z) : bus_env :=
  {| ans_start_write := I2C_ACK; ans_start_read := I2C_ACK;
     ans_byte1 := hi; ans_byte2 := lo |}.
Definition env_nak_write : bus_env :=
  {| ans_start_write := I2C_NAK; ans_start_read := I2C_ACK;
     ans_byte1 := 0; ans_byte2 := 0 |}.

Definition cfg_report : sys_config :=
  {| fw_version := "1.0"; fw_id := "20161001"; sensor_report_interval_ms := 5000;
     sensor_data_url := Some "http://example.com/data"; hsw_auth := None |}.

Example fmt2_sentinel : fmt2 SENTINEL = "-1000.00".
Proof. reflexivity. Qed.
Example fmt2_21_5 : fmt2 (43 # 2) = "21.50".
Proof. reflexivity. Qed.
Example fmt2_tie : fmt2 (1 # 8) = "0.12".
Proof. reflexivity. Qed.
Example fmt2_neg : fmt2 (-1 # 16) = "-0.06".
Proof. reflexivity. Qed.
Example read_minus_one : read_value (env_ok 31 240) == (-1)%Q.
Proof. reflexivity. Qed.
Example read_21_5 : read_value (env_ok 1 88) == (43 # 2)%Q.
Proof. reflexivity. Qed.
Example read_high_bits_ignored : read_value (env_ok 225 0) == (16)%Q.
Proof. reflexivity. Qed.
Example vcmp_on : mg_vcmp "/heater/on" "/heater/on" = 0.
Proof. reflexivity. Qed.
Example vcmp_prefix : mg_vcmp "/heater/onx" "/heater/on" = 1.
Proof. reflexivity. Qed.
Example body_21_5 : post_body (43 # 2) = "{" ++ dq ++ "office_temperature" ++ dq ++ ": 21.50}".
Proof. reflexivity. Qed.

(** * Properties *)

Open Scope Z_scope.

(** ** Decoding helpers *)

Lemma u8_small (x : Z) : 0 <= x < 256 -> u8 x = x.
Proof. intros H. unfold u8. apply Z.mod_small. exact H. Qed.

Lemma u8_range (x : Z) : 0 <= u8 x < 256.
Proof. unfold u8. apply Z.mod_pos_bound. lia. Qed.

Lemma land31_range (b : Z) : 0 <= Z.land b 31 < 32.
Proof.
  change 31 with (Z.ones 5). rewrite Z.land_ones by lia.
  apply Z.mod_pos_bound. lia.
Qed.

(** The three bit operations of the decoder on a 5-bit value, checked on
    each of the 32 values. *)
Lemma bit4_ops (u : Z) :
  0 <= u < 32 ->
  (Z.land u 16 =? 0) = negb (Z.testbit u 4) /\
  Z.land u 15 = Z.clearbit u 4 /\ 0 <= Z.land u 15 < 16.
Proof.
  intros Hu.
  assert (Hall : forall n : nat, (n < 32)%nat ->
            let u := Z.of_nat n in
            (Z.land u 16 =? 0) = negb (Z.testbit u 4) /\
            Z.land u 15 = Z.clearbit u 4 /\ 0 <= Z.land u 15 < 16).
  { intros n Hn. do 32 (destruct n as [|n]; [cbv; repeat split; discriminate|]). lia. }
  rewrite <- (Z2Nat.id u) by lia. apply Hall. lia.
Qed.

Lemma bit4_clear_range (u : Z) : 0 <= u < 32 -> Z.testbit u 4 = false -> u < 16.
Proof.
  intros Hu Hb.
  assert (Hall : forall n : nat, (n < 32)%nat ->
            Z.testbit (Z.of_nat n) 4 = false -> Z.of_nat n < 16).
  { intros n Hn. do 32 (destruct n as [|n]; [cbv; first [reflexivity | discriminate] |]). lia. }
  rewrite <- (Z2Nat.id u) in * by lia. apply Hall; [lia | exact Hb].
Qed.

(** The value computed after both acknowledgements, in sixteenths. *)
Lemma read_value_acked (env : bus_env) :
  ans_start_write env = I2C_ACK -> ans_start_read env = I2C_ACK ->
  let u := Z.land (u8 (ans_byte1 env)) 31 in
  let l := u8 (ans_byte2 env) in
  read_value env =
    if negb (Z.land u 16 =? 0)
    then (- (256 - (inject_Z (Z.land u 15) * 16 + inject_Z l / 16)))%Q
    else (inject_Z u * 16 + inject_Z l / 16)%Q.
Proof.
  intros Hw Hr. unfold read_value, mc6808_read_temp. rewrite Hw, Hr. simpl.
  destruct (negb _); reflexivity.
Qed.

Lemma sixteenths_pos (c l : Z) :
  (inject_Z c * 16 + inject_Z l / 16 == (c * 256 + l) # 16)%Q.
Proof.
  rewrite (Qmake_Qdiv (c * 256 + l) 16), inject_Z_plus, inject_Z_mult.
  change (inject_Z 256) with 256%Q. change (inject_Z (Z.pos 16)) with 16%Q.
  field.
Qed.

Lemma sixteenths_neg (c l : Z) :
  (- (256 - (inject_Z c * 16 + inject_Z l / 16)) == (c * 256 + l - 4096) # 16)%Q.
Proof.
  rewrite (Qmake_Qdiv (c * 256 + l - 4096) 16). unfold Z.sub.
  rewrite !inject_Z_plus, inject_Z_opp, inject_Z_mult.
  change (inject_Z 256) with 256%Q. change (inject_Z 4096) with 4096%Q.
  change (inject_Z (Z.pos 16)) with 16%Q.
  field.
Qed.

(** Bounds of an acknowledged read, in sixteenths. *)
Lemma read_value_acked_bounds (env : bus_env) :
  ans_start_write env = I2C_ACK -> ans_start_read env = I2C_ACK ->
  (-256 <= read_value env <= 4095 # 16)%Q.
Proof.
  intros Hw Hr. rewrite (read_value_acked env Hw Hr).
  pose proof (land31_range (u8 (ans_byte1 env))) as Hu.
  pose proof (u8_range (ans_byte2 env)) as Hl.
  destruct (bit4_ops _ Hu) as (Hb & Hc & Hcr).
  rewrite Hb, Hc. rewrite Hc in Hcr.
  destruct (Z.testbit (Z.land (u8 (ans_byte1 env)) 31) 4) eqn:Ht; simpl negb; cbv iota.
  - rewrite sixteenths_neg. unfold Qle; simpl. lia.
  - pose proof (bit4_clear_range _ Hu Ht).
    rewrite sixteenths_pos. unfold Qle; simpl. lia.
Qed.

Ltac st_simpl := repeat match goal with st : state |- _ => destruct st end; cbn.

Lemma set_heater_fields (st : state) (on : bool) :
  conns (set_heater st on) = conns st /\
  s_sensor_conn (set_heater st on) = s_sensor_conn st /\
  timer (set_heater st on) = timer st /\
  s_heater (set_heater st on) = on /\
  gpio_out (set_heater st on) LED_GPIO = Some (level_of on) /\
  gpio_out (set_heater st on) RELAY_GPIO = Some (level_of on).
Proof. st_simpl. repeat split. Qed.

Lemma read_temp_st_fields (st : state) (env : bus_env) :
  let st' := fst (read_temp_st st env) in
  st' = set_bus_log st (app (bus_log st) (read_ops env)) /\
  snd (read_temp_st st env) = read_value env.
Proof.
  unfold read_temp_st, read_ops, read_value.
  destruct (mc6808_read_temp env). split; reflexivity.
Qed.

Lemma conn_inv_idle (st : state) :
  conn_inv st -> s_sensor_conn st = None -> conns st = [].
Proof. unfold conn_inv. intros H Hn. rewrite Hn in H. exact (map_eq_nil _ _ H). Qed.

Lemma conn_inv_open (st : state) (nc : nat) :
  conn_inv st -> existsb (fun oc => Nat.eqb (oc_id oc) nc) (conns st) = true ->
  exists oc, conns st = [oc] /\ oc_id oc = nc /\ s_sensor_conn st = Some nc.
Proof.
  unfold conn_inv. intros H He.
  destruct (s_sensor_conn st) as [c|] eqn:Hs.
  - destruct (conns st) as [|oc [|oc' l]] eqn:Hc; try discriminate.
    simpl in H, He. injection H as Hid. rewrite orb_false_r in He.
    apply Nat.eqb_eq in He. exists oc. subst. auto.
  - apply map_eq_nil in H. rewrite H in He. discriminate.
Qed.

(** The timer callback from an idle state: what it does to the fields the
    invariants talk about. *)
Lemma sensor_timer_cb_idle (cfg : sys_config) (st : state) (env : bus_env)
    (accept : bool) :
  s_sensor_conn st = None ->
  let st' := sensor_timer_cb cfg st env accept in
  s_heater st' = s_heater st /\ gpio_out st' = gpio_out st /\
  if Qle_bool (read_value env) (-1000) then
    st' = set_bus_log st (app (bus_log st) (read_ops env))
  else if accept then
    conns st' = app (conns st)
      [{| oc_id := next_conn_id st; oc_url := sensor_data_url cfg;
          oc_extra_headers := auth_header cfg;
          oc_post_data := post_body (read_value env);
          oc_close_immediately := false |}] /\
    s_sensor_conn st' = Some (next_conn_id st)
  else conns st' = conns st /\ s_sensor_conn st' = None.
Proof.
  intros Hn. unfold sensor_timer_cb, read_value, read_ops, read_temp_st.
  rewrite Hn. destruct (mc6808_read_temp env) as [ops t]. simpl fst; simpl snd.
  destruct (Qle_bool t (-1000)); [st_simpl; auto|].
  destruct accept; st_simpl; subst; auto.
Qed.

Lemma deliver_preserves (cfg : sys_config) (st st' : state) (e : event) :
  conn_inv st -> gpio_inv st -> deliver cfg st e = Some st' ->
  conn_inv st' /\ gpio_inv st'.
Proof.
  intros Hc Hg Hd. destruct e as [ev env | ev uri | ev now heap | env accept | nc ev];
    simpl in Hd.
  - injection Hd as <-. destruct ev; simpl; auto.
    destruct (read_temp_st_fields st env) as [Hf _].
    destruct (read_temp_st st env) as [s t]. simpl in Hf |- *. subst s.
    revert Hc Hg. unfold conn_inv, gpio_inv. st_simpl. auto.
  - injection Hd as <-. destruct ev; simpl; auto.
    destruct (Z.eqb (mg_vcmp uri "/heater/on") 0);
      [|destruct (Z.eqb (mg_vcmp uri "/heater/off") 0)]; auto;
    unfold conn_inv, gpio_inv;
    match goal with |- context [set_heater st ?b] =>
      destruct (set_heater_fields st b) as (H1 & H2 & _ & H4 & H5 & H6) end;
    rewrite H1, H2, H4, H5, H6; auto.
  - injection Hd as <-. destruct ev; simpl; auto.
  - destruct (timer st); [|discriminate]. injection Hd as <-.
    destruct (s_sensor_conn st) as [c|] eqn:Hs.
    { assert (Hid : sensor_timer_cb cfg st env accept = st)
        by (unfold sensor_timer_cb; rewrite Hs; reflexivity).
      rewrite Hid. auto. }
    pose proof (conn_inv_idle st Hc Hs) as Hnil.
    pose proof (sensor_timer_cb_idle cfg st env accept Hs) as (Hh & Ho & Hrest).
    assert (gpio_inv (sensor_timer_cb cfg st env accept)).
    { unfold gpio_inv in *. rewrite Hh, Ho. exact Hg. }
    split; [|assumption].
    destruct (Qle_bool (read_value env) (-1000)).
    + rewrite Hrest. revert Hc. unfold conn_inv. st_simpl. auto.
    + unfold conn_inv. destruct accept; destruct Hrest as [-> ->].
      * rewrite Hnil. reflexivity.
      * rewrite Hnil. reflexivity.
  - destruct (existsb _ (conns st)) eqn:He; [|discriminate]. injection Hd as <-.
    destruct (conn_inv_open st nc Hc He) as (oc & Hcs & Hid & Hs).
    revert Hc Hg Hcs Hs. unfold conn_inv, gpio_inv.
    destruct ev; st_simpl; intros; subst; simpl; rewrite ?Nat.eqb_refl; simpl; auto.
Qed.

Lemma init_invariants (cfg : sys_config) :
  conn_inv (mg_app_init cfg boot_state) /\ gpio_inv (mg_app_init cfg boot_state).
Proof.
  unfold mg_app_init, conn_inv, gpio_inv. destruct (_ && _); cbn; auto.
Qed.

Lemma reachable_invariants (cfg : sys_config) (st : state) :
  reachable cfg st -> conn_inv st /\ gpio_inv st.
Proof.
  induction 1 as [|st e st' _ [Hc Hg] Hd].
  - apply init_invariants.
  - exact (deliver_preserves cfg st st' e Hc Hg Hd).
Qed.

(** ** [mg_vcmp] is zero exactly on equal strings *)

Lemma memcmp_refl (s : string) (n : nat) : memcmp s s n = 0.
Proof.
  revert n. induction s as [|a s IH]; intros [|n]; simpl; auto.
  rewrite Ascii.eqb_refl. apply IH.
Qed.

Lemma memcmp_zero_eq (a b : string) :
  memcmp a b (Nat.min (String.length a) (String.length b)) = 0 ->
  String.length a = String.length b -> a = b.
Proof.
  revert b. induction a as [|x a IH]; intros [|y b]; simpl; try discriminate; auto.
  intros Hm Hl. destruct (Ascii.eqb x y) eqn:E.
  - apply Ascii.eqb_eq in E. subst y. f_equal. apply IH; [exact Hm | lia].
  - exfalso. assert (Hxy : nat_of_ascii x = nat_of_ascii y) by lia.
    apply (f_equal ascii_of_nat) in Hxy. rewrite !ascii_nat_embedding in Hxy.
    subst y. rewrite Ascii.eqb_refl in E. discriminate.
Qed.

Lemma mg_vcmp_eqb (a b : string) : Z.eqb (mg_vcmp a b) 0 = String.eqb a b.
Proof.
  destruct (String.eqb a b) eqn:E.
  - apply String.eqb_eq in E. subst b. unfold mg_vcmp. rewrite memcmp_refl. simpl.
    apply Z.eqb_eq. lia.
  - apply Z.eqb_neq. intros H. apply String.eqb_neq in E. apply E.
    unfold mg_vcmp in H.
    destruct (Z.eqb (memcmp a b _) 0) eqn:Er.
    + apply Z.eqb_eq in Er. apply memcmp_zero_eq; [exact Er | lia].
    + apply Z.eqb_neq in Er. contradiction.
Qed.

(** ** Substrings *)

Lemma string_app_assoc (a b c : string) : (a ++ b) ++ c = a ++ (b ++ c).
Proof. induction a as [|x a IH]; simpl; [reflexivity | rewrite IH; reflexivity]. Qed.

Lemma prefix_app (p r : string) : String.prefix p (p ++ r) = true.
Proof.
  induction p as [|x p IH]; simpl; [destruct r; reflexivity|].
  destruct (ascii_dec x x) as [_|n]; [exact IH | contradiction].
Qed.

Lemma contains_prefix (pat s : string) :
  String.prefix pat s = true -> contains pat s = true.
Proof. intros H. destruct s; cbn [contains]; rewrite H; reflexivity. Qed.

Lemma contains_app (pat x r : string) : contains pat (x ++ pat ++ r) = true.
Proof.
  induction x as [|c x IH]; simpl.
  - apply contains_prefix, prefix_app.
  - rewrite IH. apply orb_true_r.
Qed.

(** ** Claims *)

(** C1: for the two register bytes of an acknowledged read, with [u] the
    upper byte masked to its low 5 bits: if bit 4 of [u] is clear the value
    is [u*16 + lower/16], otherwise [-(256 - ((u without bit 4)*16 +
    lower/16))]; the value is an exact multiple of 1/16. *)
Theorem decode_temperature (env : bus_env) (upper lower : Z)
  (Hw : ans_start_write env = I2C_ACK) (Hr : ans_start_read env = I2C_ACK)
  (H1 : ans_byte1 env = upper) (H2 : ans_byte2 env = lower)
  (Hu : 0 <= upper < 256) (Hl : 0 <= lower < 256) :
  (read_value env ==
     (if Z.testbit (Z.land upper 31) 4
      then - (256 - (inject_Z (Z.clearbit (Z.land upper 31) 4) * 16 + inject_Z lower / 16))
      else inject_Z (Z.land upper 31) * 16 + inject_Z lower / 16))%Q /\
  exists k : Z, (read_value env == k # 16)%Q.
Proof.
  rewrite (read_value_acked env Hw Hr). subst upper lower.
  rewrite !u8_small by assumption.
  pose proof (land31_range (ans_byte1 env)) as Hr5.
  destruct (bit4_ops _ Hr5) as (Hb & Hc & _). rewrite Hb, Hc.
  destruct (Z.testbit (Z.land (ans_byte1 env) 31) 4); simpl negb; cbv iota;
    split; try reflexivity; eexists.
  - apply sixteenths_neg.
  - apply sixteenths_pos.
Qed.

Lemma decode_temperature_witness :
  (0 <= 31 < 256 /\ 0 <= 240 < 256) /\
  (read_value (env_ok 31 240) == - (256 - (inject_Z 15 * 16 + inject_Z 240 / 16)))%Q.
Proof.
  split; [split; lia|].
  exact (proj1 (decode_temperature (env_ok 31 240) 31 240 eq_refl eq_refl eq_refl eq_refl
                  ltac:(lia) ltac:(lia))).
Defined.

(** C6: if the write-addressed start is not acknowledged, the read returns
    the sentinel after that single start; if the read-addressed start is
    not acknowledged, it returns the sentinel with no byte read (and no
    stop). *)
Theorem read_temp_no_ack (env : bus_env) :
  (ans_start_write env <> I2C_ACK ->
     read_ops env = [OpStart MCP9808_ADDR I2C_WRITE] /\ read_value env = SENTINEL) /\
  (ans_start_write env = I2C_ACK -> ans_start_read env <> I2C_ACK ->
     read_ops env = [OpStart MCP9808_ADDR I2C_WRITE; OpSendByte 5;
                     OpStart MCP9808_ADDR I2C_READ] /\
     read_value env = SENTINEL).
Proof.
  destruct env as [w r b1 b2]. unfold read_ops, read_value, mc6808_read_temp. simpl.
  destruct w, r; split; intros; try congruence; auto.
Qed.

Lemma read_temp_no_ack_witness :
  (read_ops env_nak_write = [OpStart MCP9808_ADDR I2C_WRITE] /\
   read_value env_nak_write = SENTINEL) /\
  (read_ops {| ans_start_write := I2C_ACK; ans_start_read := I2C_NAK;
               ans_byte1 := 0; ans_byte2 := 0 |} =
     [OpStart MCP9808_ADDR I2C_WRITE; OpSendByte 5; OpStart MCP9808_ADDR I2C_READ] /\
   read_value {| ans_start_write := I2C_ACK; ans_start_read := I2C_NAK;
                 ans_byte1 := 0; ans_byte2 := 0 |} = SENTINEL).
Proof.
  split.
  - apply (proj1 (read_temp_no_ack env_nak_write)). discriminate.
  - apply (proj2 (read_temp_no_ack _)); [reflexivity | discriminate].
Defined.

(** C9: an acknowledged read lies in [-256, 255.9375], strictly above the
    sentinel -1000; the reporter's test [temp <= -1000] holds exactly for
    the reads where a start was not acknowledged. *)
Theorem read_value_bounds (env : bus_env) :
  (ans_start_write env = I2C_ACK -> ans_start_read env = I2C_ACK ->
     (-256 <= read_value env <= 4095 # 16)%Q /\ (SENTINEL < read_value env)%Q) /\
  (Qle_bool (read_value env) (-1000) = true <->
     ans_start_write env <> I2C_ACK \/ ans_start_read env <> I2C_ACK).
Proof.
  split.
  - intros Hw Hr. pose proof (read_value_acked_bounds env Hw Hr) as [Hlo Hhi].
    split; [split; assumption|].
    apply Qlt_le_trans with (-256)%Q; [reflexivity | exact Hlo].
  - destruct (ans_start_write env) eqn:Hw; destruct (ans_start_read env) eqn:Hr;
      try (split; [intros _; (left + right); discriminate|intros _];
           unfold read_value, mc6808_read_temp; rewrite Hw; try rewrite Hr; reflexivity).
    pose proof (read_value_acked_bounds env Hw Hr) as [Hlo _].
    split; [|intros [H|H]; contradiction].
    intros Hle. apply Qle_bool_iff in Hle.
    exfalso. apply (Qlt_irrefl (-256)%Q).
    apply Qle_lt_trans with (read_value env); [exact Hlo|].
    apply Qle_lt_trans with (-1000)%Q; [exact Hle | reflexivity].
Qed.

Lemma read_value_bounds_witness :
  (-256 <= read_value (env_ok 16 0) <= 4095 # 16)%Q /\
  (SENTINEL < read_value (env_ok 16 0))%Q.
Proof. apply (proj1 (read_value_bounds (env_ok 16 0))); reflexivity. Defined.

(** C7: on a request, [handle_heater_action] sets the heater on for the
    exact path "/heater/on", off for the exact path "/heater/off", leaves
    the state untouched for any other path, and in every case answers with
    a 302 redirect to /heater and closes the connection. *)
Theorem heater_action_paths (st : state) (uri : string) :
  handle_heater_action st MG_EV_HTTP_REQUEST uri =
  ((if String.eqb uri "/heater/on" then set_heater st true
    else if String.eqb uri "/heater/off" then set_heater st false
    else st),
   {| hr_items := [SendRedirect 302 "/heater"]; hr_send_and_close := true |}).
Proof. unfold handle_heater_action. rewrite !mg_vcmp_eqb. reflexivity. Qed.

(** C8: [set_heater on] drives the LED and the relay to the level of [on],
    stores [on], appends exactly one log line naming the new state, and
    touches nothing else the program owns; also when [on] is the current
    state. *)
Theorem set_heater_effect (st : state) (on : bool) :
  let st' := set_heater st on in
  gpio_out st' LED_GPIO = Some (level_of on) /\
  gpio_out st' RELAY_GPIO = Some (level_of on) /\
  s_heater st' = on /\
  console st' = app (console st) ["Heater " ++ onoff on] /\
  conns st' = conns st /\ s_sensor_conn st' = s_sensor_conn st /\
  bus_log st' = bus_log st /\ timer st' = timer st.
Proof. destruct st. cbn. repeat split. Qed.

(** C10: [mg_app_init] drives both outputs low while [s_heater] is false,
    and in every state the program reaches afterwards both outputs carry
    the level of [s_heater]. *)
Theorem init_outputs_invariant (cfg : sys_config) :
  s_heater (mg_app_init cfg boot_state) = false /\
  gpio_out (mg_app_init cfg boot_state) LED_GPIO = Some GPIO_LEVEL_LOW /\
  gpio_out (mg_app_init cfg boot_state) RELAY_GPIO = Some GPIO_LEVEL_LOW /\
  (forall st, reachable cfg st ->
     gpio_out st LED_GPIO = Some (level_of (s_heater st)) /\
     gpio_out st RELAY_GPIO = Some (level_of (s_heater st))).
Proof.
  refine (conj _ (conj _ (conj _ _)));
    try (unfold mg_app_init; destruct (_ && _); reflexivity).
  intros st Hst. exact (proj2 (reachable_invariants cfg st Hst)).
Qed.

Lemma init_outputs_invariant_witness :
  let st := mg_app_init cfg_report boot_state in
  gpio_out st LED_GPIO = Some (level_of (s_heater st)) /\
  gpio_out st RELAY_GPIO = Some (level_of (s_heater st)).
Proof. apply (proj2 (proj2 (proj2 (init_outputs_invariant cfg_report)))). apply reach_init. Defined.

(** C3: a timer firing while [s_sensor_conn] is set changes nothing: no
    bus transfer, no connection, same handle.  In every reachable state the
    runtime's open outbound connections are exactly the one the handle
    names, or none. *)
Theorem timer_in_progress_noop (cfg : sys_config) :
  (forall st env accept c, s_sensor_conn st = Some c ->
     sensor_timer_cb cfg st env accept = st) /\
  (forall st, reachable cfg st ->
     map oc_id (conns st) = match s_sensor_conn st with Some c => [c] | None => [] end).
Proof.
  split.
  - intros st env accept c Hs. unfold sensor_timer_cb. rewrite Hs. reflexivity.
  - intros st Hst. exact (proj1 (reachable_invariants cfg st Hst)).
Qed.

Lemma timer_in_progress_noop_witness :
  let st := set_s_sensor_conn (mg_app_init cfg_report boot_state) (Some 7%nat) in
  sensor_timer_cb cfg_report st (env_ok 1 88) true = st.
Proof. intros st. apply (proj1 (timer_in_progress_noop cfg_report)) with (c := 7%nat). reflexivity. Defined.

(** C4: a timer firing while idle whose read returns the sentinel only
    performs the bus transfers of the read: no connection is made and the
    handle stays empty. *)
Theorem timer_sentinel_stays_idle (cfg : sys_config) (st : state) (env : bus_env)
  (accept : bool) (Hidle : s_sensor_conn st = None) (Hs : read_value env = SENTINEL) :
  let st' := sensor_timer_cb cfg st env accept in
  st' = set_bus_log st (app (bus_log st) (read_ops env)) /\
  conns st' = conns st /\ s_sensor_conn st' = None.
Proof.
  destruct (sensor_timer_cb_idle cfg st env accept Hidle) as (_ & _ & Hrest).
  rewrite Hs in Hrest. simpl in Hrest. cbv zeta. rewrite Hrest.
  destruct st; cbn in *. auto.
Qed.

Lemma timer_sentinel_stays_idle_witness :
  let st := mg_app_init cfg_report boot_state in
  let st' := sensor_timer_cb cfg_report st env_nak_write true in
  st' = set_bus_log st (app (bus_log st) (read_ops env_nak_write)) /\
  conns st' = conns st /\ s_sensor_conn st' = None.
Proof. apply timer_sentinel_stays_idle; reflexivity. Defined.

Lemma contains_app_l (pat a s : string) :
  contains pat s = true -> contains pat (a ++ s) = true.
Proof.
  intros H. induction a as [|c a IH]; simpl; [exact H|]. rewrite IH. apply orb_true_r.
Qed.

Lemma read_failed_sentinel (env : bus_env) :
  ans_start_write env <> I2C_ACK \/ ans_start_read env <> I2C_ACK ->
  read_value env = SENTINEL.
Proof.
  destruct env as [w r b1 b2]. unfold read_value, mc6808_read_temp. simpl.
  destruct w, r; intros [H|H]; try congruence; reflexivity.
Qed.

Lemma read_acked_passes_guard (env : bus_env) :
  ans_start_write env = I2C_ACK -> ans_start_read env = I2C_ACK ->
  Qle_bool (read_value env) (-1000) = false.
Proof.
  intros Hw Hr. pose proof (read_value_acked_bounds env Hw Hr) as [Hlo _].
  destruct (Qle_bool (read_value env) (-1000)) eqn:E; [|reflexivity].
  apply Qle_bool_iff in E. exfalso. apply (Qlt_irrefl (-256)%Q).
  apply Qle_lt_trans with (read_value env); [exact Hlo|].
  apply Qle_lt_trans with (-1000)%Q; [exact E | reflexivity].
Qed.

Lemma conn_inv_busy (st : state) (c : nat) :
  conn_inv st -> s_sensor_conn st = Some c ->
  exists oc, conns st = [oc] /\ oc_id oc = c.
Proof.
  unfold conn_inv. intros H Hs. rewrite Hs in H.
  destruct (conns st) as [|oc [|oc' l]]; try discriminate.
  injection H as Hid. exists oc. auto.
Qed.

(** C2, as stated (a sentinel reading shows an "unavailable" indication and
    no number) fails: with the first start not acknowledged, the page shows
    the sentinel as the number -1000.00 and contains no "unavailable". *)
Lemma status_page_sentinel_counterexample :
  let r := snd (handle_heater cfg_report (mg_app_init cfg_report boot_state)
                  MG_EV_HTTP_REQUEST env_nak_write) in
  hr_items r = [SendResponseLine 200 ("Content-Type: text/html" ++ crlf ++
                                      "Connection: close" ++ crlf);
                Printf (heater_page cfg_report SENTINEL false)] /\
  contains "<p>Temperature is -1000.00&deg;C.</p>" (heater_page cfg_report SENTINEL false) = true /\
  contains "unavailable" (heater_page cfg_report SENTINEL false) = false.
Proof. split; [reflexivity | split; vm_compute; reflexivity]. Qed.

(** C2 (amended): every status page carries the reading formatted with two
    decimals in its temperature line; a failed read is not told apart, its
    sentinel is shown as -1000.00.  The page is sent after a 200 response
    line and the connection is closed. *)
Theorem status_page_renders_reading (cfg : sys_config) (st : state) (env : bus_env) :
  let res := handle_heater cfg st MG_EV_HTTP_REQUEST env in
  hr_items (snd res) =
    [SendResponseLine 200 ("Content-Type: text/html" ++ crlf ++ "Connection: close" ++ crlf);
     Printf (heater_page cfg (read_value env) (s_heater st))] /\
  hr_send_and_close (snd res) = true /\
  contains ("<p>Temperature is " ++ fmt2 (read_value env) ++ "&deg;C.</p>")
           (heater_page cfg (read_value env) (s_heater st)) = true /\
  (ans_start_write env <> I2C_ACK \/ ans_start_read env <> I2C_ACK ->
     fmt2 (read_value env) = "-1000.00").
Proof.
  cbv zeta. unfold handle_heater.
  destruct (read_temp_st_fields st env) as [Hf Hv].
  destruct (read_temp_st st env) as [s t]. simpl in Hf, Hv. cbv beta iota.
  subst s t.
  split; [destruct st; reflexivity|]. split; [reflexivity|]. split.
  - unfold heater_page.
    match goal with
    | |- contains ?P (?A ++ ?B ++ ?C ++ ?D ++ ?E ++ ?R) = true =>
        apply (contains_app_l P A), (contains_app_l P B);
        replace (C ++ D ++ E ++ R) with ((C ++ D ++ E) ++ R)
          by (rewrite !string_app_assoc; reflexivity);
        apply contains_prefix, prefix_app
    end.
  - intros Hf. rewrite (read_failed_sentinel env Hf). reflexivity.
Qed.

Lemma status_page_renders_reading_witness :
  fmt2 (read_value env_nak_write) = "-1000.00".
Proof.
  apply (proj2 (proj2 (proj2 (status_page_renders_reading cfg_report boot_state env_nak_write)))).
  left. discriminate.
Defined.

(** C5, as stated (the handle is cleared on the connection's completion
    callback) fails: after the timer dispatched the report of 21.50 and the
    reply event was handled, the handle is still set; the reply only marks
    the connection to be closed. *)
Lemma report_reply_keeps_handle :
  exists st1 st2,
    deliver cfg_report (mg_app_init cfg_report boot_state)
            (EvTimer (env_ok 1 88) true) = Some st1 /\
    map oc_post_data (conns st1) = [post_body (43 # 2)] /\
    s_sensor_conn st1 = Some 0%nat /\
    deliver cfg_report st1 (EvSensorConn 0 MG_EV_HTTP_REPLY) = Some st2 /\
    map oc_close_immediately (conns st2) = [true] /\
    s_sensor_conn st2 = Some 0%nat.
Proof.
  eexists; eexists. split; [reflexivity|]. split; [reflexivity|].
  split; [reflexivity|]. split; [reflexivity|]. split; reflexivity.
Qed.

(** C5 (amended): a firing while idle whose read is acknowledged, with a
    destination URL configured and the connection accepted by the runtime,
    opens exactly one outbound connection, posting
    [{"office_temperature": <reading to two decimals>}] with an
    Authorization header exactly when a credential is configured, and
    records it as the handle.  A reply event leaves the handle set and marks
    the connection to be closed immediately; the close event of the
    connection clears the handle and drops the connection, whatever
    happened before. *)
Theorem report_cycle (cfg : sys_config) :
  (forall st env url,
     reachable cfg st -> s_sensor_conn st = None ->
     ans_start_write env = I2C_ACK -> ans_start_read env = I2C_ACK ->
     sensor_data_url cfg = Some url ->
     let st' := sensor_timer_cb cfg st env true in
     conns st' =
       [{| oc_id := next_conn_id st; oc_url := Some url;
           oc_extra_headers :=
             match hsw_auth cfg with
             | Some a => Some ("Authorization: " ++ a ++ crlf)
             | None => None
             end;
           oc_post_data := "{" ++ dq ++ "office_temperature" ++ dq ++ ": "
                           ++ fmt2 (read_value env) ++ "}";
           oc_close_immediately := false |}] /\
     s_sensor_conn st' = Some (next_conn_id st)) /\
  (forall st c,
     reachable cfg st -> s_sensor_conn st = Some c ->
     exists st', deliver cfg st (EvSensorConn c MG_EV_HTTP_REPLY) = Some st' /\
       s_sensor_conn st' = Some c /\ map oc_close_immediately (conns st') = [true]) /\
  (forall st c,
     reachable cfg st -> s_sensor_conn st = Some c ->
     exists st', deliver cfg st (EvSensorConn c MG_EV_CLOSE) = Some st' /\
       s_sensor_conn st' = None /\ conns st' = []).
Proof.
  split; [|split].
  - intros st env url Hst Hidle Hw Hr Hurl. cbv zeta.
    pose proof (conn_inv_idle st (proj1 (reachable_invariants cfg st Hst)) Hidle) as Hnil.
    destruct (sensor_timer_cb_idle cfg st env true Hidle) as (_ & _ & Hrest).
    rewrite (read_acked_passes_guard env Hw Hr) in Hrest.
    destruct Hrest as [Hc Hs]. rewrite Hc, Hs, Hnil, Hurl. split; reflexivity.
  - intros st c Hst Hs.
    destruct (conn_inv_busy st c (proj1 (reachable_invariants cfg st Hst)) Hs)
      as (oc & Hcs & Hid).
    destruct st; cbn in Hcs, Hs |- *. subst. cbn. rewrite Nat.eqb_refl.
    eexists. split; [reflexivity|]. cbn. rewrite ?Nat.eqb_refl. auto.
  - intros st c Hst Hs.
    destruct (conn_inv_busy st c (proj1 (reachable_invariants cfg st Hst)) Hs)
      as (oc & Hcs & Hid).
    destruct st; cbn in Hcs, Hs |- *. subst. cbn. rewrite Nat.eqb_refl.
    eexists. split; [reflexivity|]. cbn. rewrite ?Nat.eqb_refl. auto.
Qed.

Lemma report_cycle_witness :
  let st0 := mg_app_init cfg_report boot_state in
  conns (sensor_timer_cb cfg_report st0 (env_ok 1 88) true) =
    [{| oc_id := 0; oc_url := Some "http://example.com/data"; oc_extra_headers := None;
        oc_post_data := "{" ++ dq ++ "office_temperature" ++ dq ++ ": "
                        ++ fmt2 (read_value (env_ok 1 88)) ++ "}";
        oc_close_immediately := false |}] /\
  s_sensor_conn (sensor_timer_cb cfg_report st0 (env_ok 1 88) true) = Some 0%nat.
Proof.
  apply (proj1 (report_cycle cfg_report) (mg_app_init cfg_report boot_state)
                (env_ok 1 88) "http://example.com/data").
  - apply reach_init.
  - reflexivity.
  - reflexivity.
  - reflexivity.
  - reflexivity.
Defined.

(** * Further properties of main.c *)

(** ** Helpers *)

Lemma bit4_split (u : Z) :
  0 <= u < 32 ->
  (Z.testbit u 4 = true -> Z.land u 15 = u - 16) /\
  (Z.testbit u 4 = false -> u < 16).
Proof.
  intros Hu.
  assert (Hall : forall n : nat, (n < 32)%nat ->
            let u := Z.of_nat n in
            (Z.testbit u 4 = true -> Z.land u 15 = u - 16) /\
            (Z.testbit u 4 = false -> u < 16)).
  { intros n Hn. do 32 (destruct n as [|n];
      [cbv; split; intros; first [reflexivity | discriminate] |]). lia. }
  rewrite <- (Z2Nat.id u) by lia. apply Hall. lia.
Qed.

Lemma land31_u8 (x : Z) : Z.land (u8 x) 31 = x mod 32.
Proof.
  unfold u8. change 31 with (Z.ones 5). rewrite Z.land_ones by lia.
  change (2 ^ 5) with 32. rewrite Z.mod_mod_divide; [reflexivity|].
  exists 8. reflexivity.
Qed.



(** ** The sensor transaction and the decoder *)



(** Bits 5 to 7 of the upper byte never matter: clearing them leaves the
    result (and the transfers) unchanged. *)
Theorem read_ignores_high_bits (env : bus_env) :
  mc6808_read_temp env =
  mc6808_read_temp {| ans_start_write := ans_start_write env;
                      ans_start_read := ans_start_read env;
                      ans_byte1 := Z.land (ans_byte1 env) 31;
                      ans_byte2 := ans_byte2 env |}.
Proof.
  unfold mc6808_read_temp. simpl. rewrite !land31_u8.
  replace (Z.land (ans_byte1 env) 31 mod 32) with (ans_byte1 env mod 32); [reflexivity|].
  change 31 with (Z.ones 5). rewrite Z.land_ones by lia. rewrite Z.mod_mod; lia.
Qed.

(** An acknowledged read is the 13-bit register value read as a two's
    complement number, in sixteenths of a degree; hence two acknowledged
    reads give the same temperature only if their 13-bit register values
    are equal. *)
Theorem read_twos_complement (env1 env2 : bus_env) :
  (ans_start_write env1 = I2C_ACK -> ans_start_read env1 = I2C_ACK ->
     (read_value env1 ==
        (if raw13 env1 <? 4096 then raw13 env1 else raw13 env1 - 8192) # 16)%Q) /\
  (ans_start_write env1 = I2C_ACK -> ans_start_read env1 = I2C_ACK ->
   ans_start_write env2 = I2C_ACK -> ans_start_read env2 = I2C_ACK ->
   (read_value env1 == read_value env2)%Q -> raw13 env1 = raw13 env2).
Proof.
  assert (Hone : forall env, ans_start_write env = I2C_ACK -> ans_start_read env = I2C_ACK ->
     (read_value env ==
        (if raw13 env <? 4096 then raw13 env else raw13 env - 8192) # 16)%Q /\
     0 <= raw13 env < 8192).
  { intros env Hw Hr. rewrite (read_value_acked env Hw Hr). unfold raw13.
    pose proof (land31_range (u8 (ans_byte1 env))) as Hu.
    pose proof (u8_range (ans_byte2 env)) as Hl.
    destruct (bit4_ops _ Hu) as (Hb & _ & _). destruct (bit4_split _ Hu) as [Hs Hc].
    rewrite Hb.
    destruct (Z.testbit (Z.land (u8 (ans_byte1 env)) 31) 4) eqn:Ht; simpl negb; cbv iota.
    - rewrite (Hs eq_refl), sixteenths_neg.
      replace (Z.land (u8 (ans_byte1 env)) 31 * 256 + u8 (ans_byte2 env) <? 4096)
        with false by (symmetry; apply Z.ltb_ge; pose proof (bit4_ops _ Hu); lia).
      split; [|lia]. unfold Qeq; simpl. lia.
    - pose proof (Hc eq_refl). rewrite sixteenths_pos.
      replace (Z.land (u8 (ans_byte1 env)) 31 * 256 + u8 (ans_byte2 env) <? 4096)
        with true by (symmetry; apply Z.ltb_lt; lia).
      split; [reflexivity | lia]. }
  split.
  - intros Hw Hr. exact (proj1 (Hone env1 Hw Hr)).
  - intros Hw1 Hr1 Hw2 Hr2 Heq.
    destruct (Hone env1 Hw1 Hr1) as [E1 R1]. destruct (Hone env2 Hw2 Hr2) as [E2 R2].
    rewrite E1, E2 in Heq. unfold Qeq in Heq. simpl in Heq.
    destruct (raw13 env1 <? 4096) eqn:B1; destruct (raw13 env2 <? 4096) eqn:B2;
      rewrite ?Z.ltb_lt, ?Z.ltb_ge in B1, B2; lia.
Qed.

Lemma read_twos_complement_witness :
  (read_value (env_ok 31 240) == (raw13 (env_ok 31 240) - 8192) # 16)%Q.
Proof. exact (proj1 (read_twos_complement (env_ok 31 240) (env_ok 31 240)) eq_refl eq_refl). Defined.

(** ** The HTTP handlers *)





(** [set_heater] composes as "last call wins" for the heater state and
    every output, while each call leaves its own log line. *)
Theorem set_heater_last_wins (st : state) (a b : bool) :
  s_heater (set_heater (set_heater st a) b) = s_heater (set_heater st b) /\
  (forall p, gpio_out (set_heater (set_heater st a) b) p = gpio_out (set_heater st b) p) /\
  console (set_heater (set_heater st a) b) =
    app (console st) ["Heater " ++ onoff a; "Heater " ++ onoff b].
Proof.
  destruct st. cbn. repeat split.
  - intros p. destruct (Z.eqb p RELAY_GPIO); [reflexivity|].
    destruct (Z.eqb p LED_GPIO); [reflexivity|].
    destruct (Z.eqb p RELAY_GPIO); [reflexivity|].
    destruct (Z.eqb p LED_GPIO); reflexivity.
  - rewrite <- app_assoc. reflexivity.
Qed.

(** ** The reporting timer *)

(** When the runtime refuses the outbound connection ([mg_connect_http]
    returns NULL) the handle stays empty and no connection is recorded, so
    the next firing samples and tries again. *)
Theorem timer_refused_stays_idle (cfg : sys_config) (st : state) (env env' : bus_env) :
  s_sensor_conn st = None ->
  ans_start_write env = I2C_ACK -> ans_start_read env = I2C_ACK ->
  ans_start_write env' = I2C_ACK -> ans_start_read env' = I2C_ACK ->
  let st1 := sensor_timer_cb cfg st env false in
  s_sensor_conn st1 = None /\ conns st1 = conns st /\
  s_sensor_conn (sensor_timer_cb cfg st1 env' true) = Some (next_conn_id st1).
Proof.
  intros Hidle Hw Hr Hw' Hr'. cbv zeta.
  destruct (sensor_timer_cb_idle cfg st env false Hidle) as (_ & _ & Hrest).
  rewrite (read_acked_passes_guard env Hw Hr) in Hrest. destruct Hrest as [Hc Hs].
  split; [exact Hs|]. split; [exact Hc|].
  destruct (sensor_timer_cb_idle cfg _ env' true Hs) as (_ & _ & Hrest').
  rewrite (read_acked_passes_guard env' Hw' Hr') in Hrest'. exact (proj2 Hrest').
Qed.

Lemma timer_refused_stays_idle_witness :
  let st1 := sensor_timer_cb cfg_report boot_state (env_ok 1 88) false in
  s_sensor_conn st1 = None /\ conns st1 = conns boot_state /\
  s_sensor_conn (sensor_timer_cb cfg_report st1 (env_ok 2 0) true) = Some (next_conn_id st1).
Proof. apply timer_refused_stays_idle; reflexivity. Defined.

(** ** What one event may change *)

Lemma sensor_timer_cb_frame (cfg : sys_config) (st : state) (env : bus_env) (accept : bool) :
  let st' := sensor_timer_cb cfg st env accept in
  gpio_modes st' = gpio_modes st /\ s_i2c st' = s_i2c st /\
  endpoints st' = endpoints st /\ timer st' = timer st /\
  s_heater st' = s_heater st /\ console st' = console st /\ gpio_out st' = gpio_out st /\
  (bus_log st' = bus_log st \/ bus_log st' = app (bus_log st) (read_ops env)).
Proof.
  unfold sensor_timer_cb, read_temp_st, mg_connect_http, read_ops.
  destruct (s_sensor_conn st).
  - repeat split; auto.
  - destruct (mc6808_read_temp env) as [ops t]. simpl fst.
    destruct (Qle_bool t (-1000)); [|destruct accept];
      destruct st; cbn; repeat split; auto.
Qed.

Lemma deliver_frame (cfg : sys_config) (st st' : state) (e : event) :
  deliver cfg st e = Some st' ->
  gpio_modes st' = gpio_modes st /\ s_i2c st' = s_i2c st /\
  endpoints st' = endpoints st /\ timer st' = timer st /\
  (bus_log st' = bus_log st \/ exists env, bus_log st' = app (bus_log st) (read_ops env)) /\
  ((s_heater st' = s_heater st /\ console st' = console st /\ gpio_out st' = gpio_out st) \/
   (exists b, e = EvHeaterAction MG_EV_HTTP_REQUEST ("/heater/" ++ onoff b) /\
              st' = set_heater st b)) /\
  match e with
  | EvTimer _ _ | EvSensorConn _ _ => True
  | _ => conns st' = conns st /\ s_sensor_conn st' = s_sensor_conn st
  end.
Proof.
  intros Hd. destruct e as [ev env | ev uri | ev now heap | env accept | nc ev];
    simpl in Hd.
  - injection Hd as <-. destruct ev; simpl fst; try (repeat split; auto; fail).
    unfold handle_heater. destruct (read_temp_st_fields st env) as [Hf _].
    destruct (read_temp_st st env) as [s t]. simpl in Hf. cbv beta iota. subst s.
    destruct st; cbn. repeat split; eauto.
  - injection Hd as <-. destruct ev; simpl fst; try (repeat split; auto; fail).
    unfold handle_heater_action. rewrite !mg_vcmp_eqb.
    destruct (String.eqb uri "/heater/on") eqn:E1.
    + apply String.eqb_eq in E1. subst uri.
      destruct st; cbn; repeat split; auto. right. exists true. auto.
    + destruct (String.eqb uri "/heater/off") eqn:E2.
      * apply String.eqb_eq in E2. subst uri.
        destruct st; cbn; repeat split; auto. right. exists false. auto.
      * cbn. repeat split; auto.
  - injection Hd as <-. destruct ev; simpl fst; repeat split; auto.
  - destruct (timer st) eqn:Ht; [|discriminate]. injection Hd as <-.
    destruct (sensor_timer_cb_frame cfg st env accept)
      as (H1 & H2 & H3 & H4 & H5 & H6 & H7 & H8).
    split; [auto|]. split; [auto|]. split; [auto|]. split; [congruence|].
    split; [destruct H8; [left; auto | right; eauto]|].
    split; [left; auto | exact I].
  - destruct (existsb _ (conns st)); [|discriminate]. injection Hd as <-.
    destruct ev; destruct st; cbn; repeat split; auto.
Qed.

Lemma reachable_static (cfg : sys_config) (st : state) :
  reachable cfg st ->
  timer st = (if (Z.ltb 0 (sensor_report_interval_ms cfg)) &&
                 match sensor_data_url cfg with Some _ => true | None => false end
              then Some (sensor_report_interval_ms cfg) else None) /\
  endpoints st = ["/heater/"; "/heater"; "/debug"] /\
  s_i2c st = Some (I2C_SDA_GPIO, I2C_SCL_GPIO) /\
  gpio_modes st LED_GPIO = Some GPIO_MODE_OUTPUT /\
  gpio_modes st RELAY_GPIO = Some GPIO_MODE_OUTPUT.
Proof.
  induction 1 as [|st e st' _ IH Hd].
  - unfold mg_app_init. destruct (_ && _); cbn; repeat split.
  - destruct (deliver_frame cfg st st' e Hd) as (H1 & H2 & H3 & H4 & _).
    rewrite H1, H2, H3, H4. exact IH.
Qed.

Lemma guard_passed_acked (env : bus_env) :
  Qle_bool (read_value env) (-1000) = false ->
  ans_start_write env = I2C_ACK /\ ans_start_read env = I2C_ACK.
Proof.
  intros Hg.
  destruct (ans_start_write env) eqn:Hw, (ans_start_read env) eqn:Hr; auto;
    rewrite read_failed_sentinel in Hg by (rewrite Hw, Hr; (left + right); discriminate);
    discriminate.
Qed.

Lemma read_ops_addressing (env : bus_env) :
  Forall (fun op => match op with
                    | OpStart a _ => a = MCP9808_ADDR
                    | OpSendByte b => b = 5
                    | _ => True
                    end) (read_ops env).
Proof.
  unfold read_ops, mc6808_read_temp.
  destruct (negb _); [repeat constructor|].
  destruct (negb (ack_eqb _ _)); [repeat constructor|].
  destruct (negb (Z.eqb _ 0)); simpl; repeat constructor.
Qed.

(** ** Invariants of every reachable state *)

(** What [mg_app_init] sets up is never changed afterwards: the timer is
    armed, with the configured interval, exactly when the interval is
    positive and a URL is configured; the three endpoints stay registered;
    the bus stays on GPIO 12/14; the LED and relay pins stay outputs. *)
Theorem init_setup_kept (cfg : sys_config) (st : state) :
  reachable cfg st ->
  timer st = (if (Z.ltb 0 (sensor_report_interval_ms cfg)) &&
                 match sensor_data_url cfg with Some _ => true | None => false end
              then Some (sensor_report_interval_ms cfg) else None) /\
  endpoints st = ["/heater/"; "/heater"; "/debug"] /\
  s_i2c st = Some (I2C_SDA_GPIO, I2C_SCL_GPIO) /\
  gpio_modes st LED_GPIO = Some GPIO_MODE_OUTPUT /\
  gpio_modes st RELAY_GPIO = Some GPIO_MODE_OUTPUT.
Proof. apply reachable_static. Qed.

Lemma init_setup_kept_witness :
  timer (mg_app_init cfg_report boot_state) = Some 5000.
Proof. apply (proj1 (init_setup_kept cfg_report _ (reach_init cfg_report))). Defined.

(** With a non-positive interval or no URL the reporter is inert for good:
    no timer, no handle and no outbound connection in any reachable
    state. *)
Theorem reporter_inert (cfg : sys_config) (st : state) :
  (sensor_report_interval_ms cfg <= 0 \/ sensor_data_url cfg = None) ->
  reachable cfg st ->
  timer st = None /\ s_sensor_conn st = None /\ conns st = [].
Proof.
  intros Hoff Hst.
  assert (Htm : forall s, reachable cfg s -> timer s = None).
  { intros s Hs. rewrite (proj1 (reachable_static cfg s Hs)).
    destruct Hoff as [H|H].
    - replace (Z.ltb 0 (sensor_report_interval_ms cfg)) with false
        by (symmetry; apply Z.ltb_ge; lia). reflexivity.
    - rewrite H, andb_false_r. reflexivity. }
  split; [exact (Htm st Hst)|].
  induction Hst as [|st e st' Hs IH Hd].
  - unfold mg_app_init. destruct (_ && _); cbn; auto.
  - destruct IH as [Hn Hc].
    destruct e as [ev env | ev uri | ev now heap | env accept | nc ev].
    3: destruct (deliver_frame cfg st st' _ Hd) as (_ & _ & _ & _ & _ & _ & Hk);
       destruct Hk as [-> ->]; auto.
    2: destruct (deliver_frame cfg st st' _ Hd) as (_ & _ & _ & _ & _ & _ & Hk);
       destruct Hk as [-> ->]; auto.
    1: destruct (deliver_frame cfg st st' _ Hd) as (_ & _ & _ & _ & _ & _ & Hk);
       destruct Hk as [-> ->]; auto.
    + simpl in Hd. rewrite (Htm st Hs) in Hd. discriminate.
    + simpl in Hd. rewrite Hc in Hd. discriminate.
Qed.

Lemma reporter_inert_witness :
  let cfg := {| fw_version := "1.0"; fw_id := "x"; sensor_report_interval_ms := 0;
                sensor_data_url := Some "http://example.com/data"; hsw_auth := None |} in
  let st := mg_app_init cfg boot_state in
  timer st = None /\ s_sensor_conn st = None /\ conns st = [].
Proof.
  intros cfg st. apply (reporter_inert cfg st); [left; simpl; lia | apply reach_init].
Defined.

(** The bus log is a sequence of whole [mc6808_read_temp] transactions:
    the program never addresses another device than 0x1F and never sends a
    byte other than the register selector 0x05. *)
Theorem bus_only_temperature_reads (cfg : sys_config) (st : state) :
  reachable cfg st ->
  (exists envs, bus_log st = flat_map read_ops envs) /\
  Forall (fun op => match op with
                    | OpStart a _ => a = MCP9808_ADDR
                    | OpSendByte b => b = 5
                    | _ => True
                    end) (bus_log st).
Proof.
  intros Hst.
  assert (Hex : exists envs, bus_log st = flat_map read_ops envs).
  { induction Hst as [|st e st' _ [envs IH] Hd].
    - exists []. unfold mg_app_init. destruct (_ && _); reflexivity.
    - destruct (deliver_frame cfg st st' e Hd) as (_ & _ & _ & _ & Hb & _).
      destruct Hb as [Hb | [env Hb]].
      + exists envs. congruence.
      + exists (app envs [env]). rewrite Hb, IH, flat_map_app. simpl.
        rewrite app_nil_r. reflexivity. }
  split; [exact Hex|]. destruct Hex as [envs ->].
  apply Forall_forall. intros op Hin. apply in_flat_map in Hin as [env [_ Hin]].
  exact (proj1 (Forall_forall _ _) (read_ops_addressing env) op Hin).
Qed.

Lemma bus_only_temperature_reads_witness :
  exists envs, bus_log (mg_app_init cfg_report boot_state) = flat_map read_ops envs.
Proof. exact (proj1 (bus_only_temperature_reads cfg_report _ (reach_init cfg_report))). Defined.

(** Every open outbound connection is a report of a genuine reading: it
    goes to the configured URL, carries the Authorization header exactly
    when a credential is configured, and posts a reading within
    [-256, 255.9375] (never the sentinel). *)
Theorem open_reports_genuine (cfg : sys_config) (st : state) :
  reachable cfg st ->
  Forall (fun oc =>
            oc_url oc = sensor_data_url cfg /\
            oc_extra_headers oc =
              match hsw_auth cfg with
              | Some a => Some ("Authorization: " ++ a ++ crlf)
              | None => None
              end /\
            exists t, (-256 <= t <= 4095 # 16)%Q /\
                      oc_post_data oc = "{" ++ dq ++ "office_temperature" ++ dq ++ ": "
                                        ++ fmt2 t ++ "}") (conns st).
Proof.
  induction 1 as [|st e st' Hs IH Hd].
  - unfold mg_app_init. destruct (_ && _); constructor.
  - destruct e as [ev env | ev uri | ev now heap | env accept | nc ev].
    1-3: destruct (deliver_frame cfg st st' _ Hd) as (_ & _ & _ & _ & _ & _ & Hk);
         destruct Hk as [-> _]; exact IH.
    + simpl in Hd. destruct (timer st); [|discriminate]. injection Hd as <-.
      destruct (s_sensor_conn st) eqn:Hn.
      * unfold sensor_timer_cb. rewrite Hn. exact IH.
      * destruct (sensor_timer_cb_idle cfg st env accept Hn) as (_ & _ & Hrest).
        destruct (Qle_bool (read_value env) (-1000)) eqn:Hg.
        -- rewrite Hrest. destruct st; exact IH.
        -- destruct (guard_passed_acked env Hg) as [Hw Hr].
           destruct accept; destruct Hrest as [Hc _]; rewrite Hc; [|exact IH].
           apply Forall_app. split; [exact IH|]. constructor; [|constructor].
           simpl. split; [reflexivity|]. split; [reflexivity|].
           exists (read_value env). split; [exact (read_value_acked_bounds env Hw Hr)|].
           reflexivity.
    + simpl in Hd. destruct (existsb _ (conns st)); [|discriminate]. injection Hd as <-.
      destruct ev; destruct st; cbn in IH |- *; try exact IH.
      * apply Forall_forall. intros oc Hin. apply filter_In in Hin as [Hin _].
        exact (proj1 (Forall_forall _ _) IH oc Hin).
      * apply Forall_map. eapply Forall_impl; [|exact IH].
        intros oc P. destruct (Nat.eqb (oc_id oc) nc); exact P.
Qed.

Lemma open_reports_genuine_witness :
  Forall (fun oc => oc_url oc = Some "http://example.com/data")
         (conns (mg_app_init cfg_report boot_state)).
Proof.
  pose proof (open_reports_genuine cfg_report _ (reach_init cfg_report)) as H.
  eapply Forall_impl; [|exact H]. intros oc [Hu _]. exact Hu.
Defined.

(** Only a request on the exact path "/heater/on" or "/heater/off" changes
    the heater state, the outputs or the log, and it does so by
    [set_heater]; every other event leaves all three alone. *)
Theorem heater_changed_only_by_action (cfg : sys_config) (st st' : state) (e : event) :
  deliver cfg st e = Some st' ->
  (s_heater st' = s_heater st /\ console st' = console st /\ gpio_out st' = gpio_out st) \/
  (exists b, e = EvHeaterAction MG_EV_HTTP_REQUEST ("/heater/" ++ onoff b) /\
             st' = set_heater st b).
Proof. intros Hd. exact (proj1 (proj2 (proj2 (proj2 (proj2 (proj2 (deliver_frame cfg st st' e Hd))))))). Qed.

Lemma heater_changed_only_by_action_witness :
  (s_heater boot_state = s_heater boot_state /\ console boot_state = console boot_state /\
   gpio_out boot_state = gpio_out boot_state) \/
  (exists b, EvHeaterAction MG_EV_HTTP_REQUEST "/heater/x" =
             EvHeaterAction MG_EV_HTTP_REQUEST ("/heater/" ++ onoff b) /\
             boot_state = set_heater boot_state b).
Proof. apply (heater_changed_only_by_action cfg_report). reflexivity. Defined.

(** The log only holds "Heater on" and "Heater off" lines; its last line
    names the current heater state, and while it is empty the heater is
    off. *)
Theorem console_names_heater (cfg : sys_config) (st : state) :
  reachable cfg st ->
  Forall (fun l => l = "Heater on" \/ l = "Heater off") (console st) /\
  match rev (console st) with
  | [] => s_heater st = false
  | l :: _ => l = "Heater " ++ onoff (s_heater st)
  end.
Proof.
  induction 1 as [|st e st' _ [IHf IHl] Hd].
  - unfold mg_app_init. destruct (_ && _); cbn; split; auto.
  - destruct (deliver_frame cfg st st' e Hd) as (_ & _ & _ & _ & _ & Hh & _).
    destruct Hh as [(Hh & Hc & _) | (b & _ & ->)].
    + rewrite Hc, Hh. split; assumption.
    + destruct (set_heater_fields st b) as (_ & _ & _ & Hhb & _).
      replace (console (set_heater st b)) with (app (console st) ["Heater " ++ onoff b])
        by (destruct st; reflexivity).
      rewrite Hhb, rev_app_distr. split; [|reflexivity].
      apply Forall_app. split; [exact IHf|]. constructor; [|constructor].
      destruct b; auto.
Qed.

Lemma console_names_heater_witness :
  Forall (fun l => l = "Heater on" \/ l = "Heater off")
         (console (mg_app_init cfg_report boot_state)).
Proof. exact (proj1 (console_names_heater cfg_report _ (reach_init cfg_report))). Defined.
